(** * Football match-day dashboard (app.py): model and properties

    The script loads a table of match records, filters it by the sidebar
    selections and derives per-team statistics, head-to-head counts and a
    top-scorers ranking.  The table is a list of records, a boolean mask
    selects rows, [len] and [sum] are the usual list measures, and the
    module-level names of the script live in a finite map. *)

From Stdlib Require Import ZArith List Lia Permutation Sorted.
From Stdlib Require Import Floats.PrimFloat Floats.FloatOps Floats.SpecFloat.
From stdpp Require Import base strings gmap sorting.
Import ListNotations.

Local Open Scope string_scope.
Local Open Scope list_scope.
Local Open Scope Z_scope.

(** ** Data model *)

(** One row of the sheet (columns of match_data.xlsx).  [Date] is the
    timestamp as a day number (days since 1970-01-01); the goal and foul
    cells are integers. *)
Record MatchRecord : Type := mkMatch {
  League    : string;
  HomeTeam  : string;
  AwayTeam  : string;
  Date      : Z;
  HomeGoals : Z;
  AwayGoals : Z;
  HomeFouls : Z;
  AwayFouls : Z
}.

Definition DataFrame : Type := list MatchRecord.

(** Exceptions the modelled fragment can raise. *)
Inductive exn : Type :=
| ZeroDivisionError
| NameError (name : string).

Inductive result (A : Type) : Type :=
| Ok (a : A)
| Raise (e : exn).
Arguments Ok {A} a.
Arguments Raise {A} e.

Definition rbind {A B} (m : result A) (k : A -> result B) : result B :=
  match m with
  | Ok a => k a
  | Raise e => Raise e
  end.

(** ** Table primitives *)

(** [df[mask]]: the rows where the boolean mask holds, in table order. *)
Definition loc (mask : MatchRecord -> bool) (df : DataFrame) : DataFrame :=
  List.filter mask df.

(** [len(df)] *)
Definition len {A} (l : list A) : Z := Z.of_nat (length l).

(** [series.sum()] of an integer column; 0 on the empty column. *)
Definition Series_sum (s : list Z) : Z := fold_right Z.add 0 s.

(** [df[col].sum()] *)
Definition col_sum (col : MatchRecord -> Z) (df : DataFrame) : Z :=
  Series_sum (map col df).

(** ** Numbers of the summary *)

(** The average is either the Python integer 0 of the guarded branch or
    a double (the quotient of an integer column sum by a length). *)
Inductive number : Type :=
| PyInt (z : Z)
| NpFloat (f : float).

(** Integer to double, rounding to nearest even. *)
Definition float_of_Z (z : Z) : float :=
  SF2Prim (binary_normalize prec emax z 0 false).

Definition two52 : float := float_of_Z (2 ^ 52).

(** Round to the nearest integral double, ties to even, keeping the sign
    (also of a zero).  Below 2^52 in magnitude, adding and subtracting
    2^52 rounds the fraction away; from 2^52 on every double is integral. *)
Definition rint (x : float) : float :=
  if PrimFloat.ltb (PrimFloat.abs x) two52 then
    if PrimFloat.eqb x PrimFloat.zero then x
    else if PrimFloat.ltb x PrimFloat.zero
    then PrimFloat.opp
           (PrimFloat.sub (PrimFloat.add (PrimFloat.opp x) two52) two52)
    else PrimFloat.sub (PrimFloat.add x two52) two52
  else x.

(** [total_goals / total_matches]: true division of an integer by an
    integer, giving a double.  Division by zero is a fault here (the
    strict reading of [/]): the caller has to guard it. *)
Definition true_divide (a b : Z) : result float :=
  if b =? 0 then Raise ZeroDivisionError
  else Ok (PrimFloat.div (float_of_Z a) (float_of_Z b)).

(** [round(x, 2)]: an integer is returned unchanged; a double is scaled
    by 100, rounded to an integral value and scaled back. *)
Definition round2 (x : number) : number :=
  match x with
  | PyInt z => PyInt z
  | NpFloat f =>
      NpFloat (PrimFloat.div (rint (PrimFloat.mul f (float_of_Z 100)))
                             (float_of_Z 100))
  end.

(** ** calculate_insights (app.py, lines 76-99) *)

(** The returned dictionary, one field per key. *)
Record Insights : Type := mkInsights {
  TotalMatches         : Z;
  Wins                 : Z;
  Losses               : Z;
  Draws                : Z;
  CleanSheets          : Z;
  TotalGoalsScored     : Z;
  AverageGoalsPerMatch : number;
  TotalFouls           : Z
}.

Definition is_home (team : string) (r : MatchRecord) : bool :=
  String.eqb (HomeTeam r) team.
Definition is_away (team : string) (r : MatchRecord) : bool :=
  String.eqb (AwayTeam r) team.

Definition calculate_insights (filtered_df : DataFrame) (team : string)
  : result Insights :=
  let total_goals :=
    col_sum HomeGoals (loc (is_home team) filtered_df) +
    col_sum AwayGoals (loc (is_away team) filtered_df) in
  let total_matches := len filtered_df in
  rbind (if total_matches >? 0
         then rbind (true_divide total_goals total_matches)
                    (fun q => Ok (NpFloat q))
         else Ok (PyInt 0))
  (fun avg_goals_per_match =>
  let total_fouls :=
    col_sum HomeFouls (loc (is_home team) filtered_df) +
    col_sum AwayFouls (loc (is_away team) filtered_df) in
  let wins :=
    len (loc (fun r => is_home team r && (HomeGoals r >? AwayGoals r)) filtered_df) +
    len (loc (fun r => is_away team r && (AwayGoals r >? HomeGoals r)) filtered_df) in
  let losses :=
    len (loc (fun r => is_home team r && (HomeGoals r <? AwayGoals r)) filtered_df) +
    len (loc (fun r => is_away team r && (AwayGoals r <? HomeGoals r)) filtered_df) in
  let draws := total_matches - wins - losses in
  let clean_sheets :=
    len (loc (fun r => (is_home team r && (AwayGoals r =? 0)) ||
                       (is_away team r && (HomeGoals r =? 0))) filtered_df) in
  Ok {| TotalMatches := total_matches;
        Wins := wins;
        Losses := losses;
        Draws := draws;
        CleanSheets := clean_sheets;
        TotalGoalsScored := total_goals;
        AverageGoalsPerMatch := round2 avg_goals_per_match;
        TotalFouls := total_fouls |}).

(** The dictionary [calculate_insights] builds, with the average left as
    a parameter. *)
Definition summary (S : DataFrame) (T : string) (avg : number) : Insights :=
  let wins :=
    len (loc (fun r => is_home T r && (HomeGoals r >? AwayGoals r)) S) +
    len (loc (fun r => is_away T r && (AwayGoals r >? HomeGoals r)) S) in
  let losses :=
    len (loc (fun r => is_home T r && (HomeGoals r <? AwayGoals r)) S) +
    len (loc (fun r => is_away T r && (AwayGoals r <? HomeGoals r)) S) in
  {| TotalMatches := len S;
     Wins := wins;
     Losses := losses;
     Draws := len S - wins - losses;
     CleanSheets :=
       len (loc (fun r => (is_home T r && (AwayGoals r =? 0)) ||
                          (is_away T r && (HomeGoals r =? 0))) S);
     TotalGoalsScored :=
       col_sum HomeGoals (loc (is_home T) S) + col_sum AwayGoals (loc (is_away T) S);
     AverageGoalsPerMatch := avg;
     TotalFouls :=
       col_sum HomeFouls (loc (is_home T) S) + col_sum AwayFouls (loc (is_away T) S)
  |}.

(** The per-record reading of the totals: a record contributes its
    home-side field when the team is at home, and its away-side field when
    the team is away. *)
Definition goals_contribution (team : string) (r : MatchRecord) : Z :=
  (if is_home team r then HomeGoals r else 0) +
  (if is_away team r then AwayGoals r else 0).

Definition fouls_contribution (team : string) (r : MatchRecord) : Z :=
  (if is_home team r then HomeFouls r else 0) +
  (if is_away team r then AwayFouls r else 0).

(** The two records of the worked example. *)
Definition example_df : DataFrame :=
  [ mkMatch "LeagueA" "TeamX" "TeamY" 19723 2 1 3 2;
    mkMatch "LeagueA" "TeamY" "TeamX" 19730 0 0 1 1 ].

(** ** Sidebar selections and row filters (lines 36-60) *)

(** What the sidebar widgets return on one run of the script. *)
Record Selection : Type := mkSelection {
  selected_league : string;
  selected_team1  : string;
  selected_team2  : string;
  date_range      : Z * Z
}.

Definition in_range (dr : Z * Z) (r : MatchRecord) : bool :=
  (Date r >=? fst dr) && (Date r <=? snd dr).

(** Lines 49-52 and 57-60: the rows of one team inside the date range. *)
Definition team_rows (df : DataFrame) (team : string) (dr : Z * Z) : DataFrame :=
  loc (fun r => (is_home team r || is_away team r) && in_range dr r) df.

(** ** Head-to-head counts (lines 129-144) *)

(** A row is a direct fixture of the two teams, in either order. *)
Definition direct (t1 t2 : string) (r : MatchRecord) : bool :=
  (is_home t1 r && is_away t2 r) || (is_home t2 r && is_away t1 r).

Definition head_to_head_data (df : DataFrame) (t1 t2 : string) : DataFrame :=
  loc (fun r => (is_home t1 r && is_away t2 r) ||
                (is_home t2 r && is_away t1 r)) df.

(** Fixtures a team plays at home with the higher score plus those it
    plays away with the higher score. *)
Definition wins_of (h : DataFrame) (team : string) : Z :=
  len (loc (fun r => is_home team r && (HomeGoals r >? AwayGoals r)) h) +
  len (loc (fun r => is_away team r && (AwayGoals r >? HomeGoals r)) h).

Definition team1_wins (df : DataFrame) (t1 t2 : string) : Z :=
  wins_of (head_to_head_data df t1 t2) t1.

Definition team2_wins (df : DataFrame) (t1 t2 : string) : Z :=
  wins_of (head_to_head_data df t1 t2) t2.

Definition draws (df : DataFrame) (t1 t2 : string) : Z :=
  len (loc (fun r => HomeGoals r =? AwayGoals r) (head_to_head_data df t1 t2)).

Definition total_direct_matches (df : DataFrame) (t1 t2 : string) : Z :=
  len (head_to_head_data df t1 t2).

(** ** Top-scorers ranking (lines 239-252) *)

Definition string_le (a b : string) : Prop := String.leb a b = true.

#[local] Instance string_le_dec (a b : string) : Decision (string_le a b) :=
  decide (String.leb a b = true).

(** The group labels of a [groupby]: the distinct keys, in sorted order. *)
Definition group_keys (keys : list string) : list string :=
  merge_sort string_le (remove_dups keys).

(** The sum of [val] over the rows whose key is [k]. *)
Definition group_total {R : Type} (key : R -> string) (val : R -> Z)
    (k : string) (rows : list R) : Z :=
  Series_sum (map val (List.filter (fun r => String.eqb (key r) k) rows)).

(** [rows.groupby(key)[val].sum().reset_index()]: one row per distinct
    key, carrying the sum of [val] over the rows with that key. *)
Definition groupby_sum {R : Type} (key : R -> string) (val : R -> Z)
    (rows : list R) : list (string * Z) :=
  map (fun k => (k, group_total key val k rows)) (group_keys (map key rows)).

(** Insertion into a list sorted by decreasing total; the new row goes
    before the rows with an equal total. *)
Fixpoint insert_desc (x : string * Z) (l : list (string * Z)) : list (string * Z) :=
  match l with
  | [] => [x]
  | y :: l' => if snd y >? snd x then y :: insert_desc x l' else x :: l
  end.

(** Rows by decreasing total, rows with equal totals in table order. *)
Definition sort_desc (l : list (string * Z)) : list (string * Z) :=
  fold_right insert_desc [] l.

(** [frame.nlargest(n, 'TotalGoals')] *)
Definition nlargest (n : nat) (frame : list (string * Z)) : list (string * Z) :=
  firstn n (sort_desc frame).

Definition filtered_league_data (df : DataFrame) (league : string) (dr : Z * Z)
  : DataFrame :=
  loc (fun r => String.eqb (League r) league && in_range dr r) df.

(** Line 251: the concatenated home and away totals, regrouped by team. *)
Definition total_goals_by_team (fl : DataFrame) : list (string * Z) :=
  let total_goals := groupby_sum HomeTeam HomeGoals fl in
  let away_goals := groupby_sum AwayTeam AwayGoals fl in
  groupby_sum fst snd (total_goals ++ away_goals).

Definition top_scorers (df : DataFrame) (league : string) (dr : Z * Z)
  : list (string * Z) :=
  nlargest 6 (total_goals_by_team (filtered_league_data df league dr)).

(** A descending table of totals. *)
Definition sorted_desc (l : list (string * Z)) : Prop :=
  StronglySorted (fun a b => snd a >= snd b) l.

(** ** The script's module-level names *)

(** Values bound to the names the model tracks.  Names bound to widgets
    and figures ([st], [plt], [col1], [fig], [ax], ...) are not tracked. *)
#[warnings="-register-all"]
Inductive value : Type :=
| VNone
| VInt (z : Z)
| VStr (s : string)
| VFrame (df : DataFrame)
| VInsights (i : Insights)
| VTable (t : list (string * Z))
| VList (l : list value).

Abbreviation namespace := (gmap string value).

(** A run of a script fragment: it reads and updates the namespace and
    may raise. *)
Definition script (A : Type) : Type := namespace -> result (A * namespace).

Definition sret {A} (a : A) : script A := fun ns => Ok (a, ns).

Definition sbind {A B} (m : script A) (k : A -> script B) : script B :=
  fun ns => match m ns with
            | Ok (a, ns') => k a ns'
            | Raise e => Raise e
            end.

Notation "x <- m ;; k" := (sbind m (fun x => k))
  (at level 100, m at next level, right associativity).
Notation "m ;; k" := (sbind m (fun _ => k))
  (at level 100, right associativity).

(** [name = v] *)
Definition assign (name : string) (v : value) : script unit :=
  fun ns => Ok (tt, <[name := v]> ns).

(** Reading a name; an unbound name raises [NameError]. *)
Definition load (name : string) : script value :=
  fun ns => match ns !! name with
            | Some v => Ok (v, ns)
            | None => Raise (NameError name)
            end.

Definition lift {A} (r : result A) : script A :=
  fun ns => match r with
            | Ok a => Ok (a, ns)
            | Raise e => Raise e
            end.

(** The namespace a fragment leaves when started on [ns]. *)
Definition exec (m : script unit) (ns : namespace) : result namespace :=
  match m ns with
  | Ok (_, ns') => Ok ns'
  | Raise e => Raise e
  end.

(** Lines 30-60: the table, the selections and the two filtered tables
    ([filtered_df2] stays [None] when team 2 is the sentinel).  What the
    widgets return is an input of the run; the option lists they offer
    ([league_teams], [available_teams]) are not tracked. *)
Definition sec_filters (data : DataFrame) (sel : Selection) : script unit :=
  assign "df" (VFrame data) ;;
  assign "selected_league" (VStr (selected_league sel)) ;;
  assign "selected_team1" (VStr (selected_team1 sel)) ;;
  assign "selected_team2" (VStr (selected_team2 sel)) ;;
  assign "date_range" (VList [VInt (fst (date_range sel)); VInt (snd (date_range sel))]) ;;
  assign "filtered_df1"
         (VFrame (team_rows data (selected_team1 sel) (date_range sel))) ;;
  assign "filtered_df2" VNone ;;
  if negb (String.eqb (selected_team2 sel) "None")
  then assign "filtered_df2"
              (VFrame (team_rows data (selected_team2 sel) (date_range sel)))
  else sret tt.

(** Lines 104-116: the summaries of team 1 and, when selected, team 2. *)
Definition sec_insights (data : DataFrame) (sel : Selection) : script unit :=
  insights1 <- lift (calculate_insights
                       (team_rows data (selected_team1 sel) (date_range sel))
                       (selected_team1 sel)) ;;
  assign "insights1" (VInsights insights1) ;;
  if negb (String.eqb (selected_team2 sel) "None")
  then insights2 <- lift (calculate_insights
                            (team_rows data (selected_team2 sel) (date_range sel))
                            (selected_team2 sel)) ;;
       assign "insights2" (VInsights insights2)
  else sret tt.

(** Lines 122-144: the three counts start as [None]; the block that
    computes them, and that alone binds the two loss counts, runs only
    when neither team is the sentinel. *)
Definition sec_head_to_head (data : DataFrame) (sel : Selection) : script unit :=
  let t1 := selected_team1 sel in
  let t2 := selected_team2 sel in
  assign "team1_wins" VNone ;;
  assign "team2_wins" VNone ;;
  assign "draws" VNone ;;
  if negb (String.eqb t1 "None") && negb (String.eqb t2 "None")
  then
    assign "head_to_head_data" (VFrame (head_to_head_data data t1 t2)) ;;
    assign "team1_wins" (VInt (team1_wins data t1 t2)) ;;
    assign "team2_wins" (VInt (team2_wins data t1 t2)) ;;
    assign "draws" (VInt (draws data t1 t2)) ;;
    let total_matches := total_direct_matches data t1 t2 in
    assign "total_matches" (VInt total_matches) ;;
    assign "team1_losses"
           (VInt (total_matches - team1_wins data t1 t2 - draws data t1 t2)) ;;
    assign "team2_losses"
           (VInt (total_matches - team2_wins data t1 t2 - draws data t1 t2))
  else sret tt.

(** The value a count name holds after line 144: the count when the block
    ran, [None] when it was skipped. *)
Definition count_value (t1 t2 : string) (count : Z) : value :=
  if negb (String.eqb t1 "None") && negb (String.eqb t2 "None")
  then VInt count else VNone.

(** Lines 147-150: the chart's series, built after the conditional block
    from the names it may or may not have bound. *)
Definition sec_chart_series (sel : Selection) : script unit :=
  assign "labels" (VList [VStr (selected_team1 sel); VStr (selected_team2 sel)]) ;;
  w1 <- load "team1_wins" ;;
  w2 <- load "team2_wins" ;;
  assign "wins" (VList [w1; w2]) ;;
  l1 <- load "team1_losses" ;;
  l2 <- load "team2_losses" ;;
  assign "losses" (VList [l1; l2]) ;;
  d <- load "draws" ;;
  assign "draws" (VList [d; d]).

(** Lines 235-252: the ranking, computed when the league name is a
    non-empty string. *)
Definition sec_top_scorers (data : DataFrame) (sel : Selection) : script unit :=
  if negb (String.eqb (selected_league sel) "")
  then
    let fl := filtered_league_data data (selected_league sel) (date_range sel) in
    assign "filtered_league_data" (VFrame fl) ;;
    assign "total_goals" (VTable (total_goals_by_team fl)) ;;
    assign "away_goals" (VTable (groupby_sum AwayTeam AwayGoals fl)) ;;
    assign "top_scorers"
           (VTable (top_scorers data (selected_league sel) (date_range sel)))
  else sret tt.

(** The script up to the end of the head-to-head block (line 144). *)
Definition run_to_head_to_head (data : DataFrame) (sel : Selection)
  : result namespace :=
  exec (sec_filters data sel ;; sec_insights data sel ;;
        sec_head_to_head data sel) ∅.

(** One run of the whole script on a loaded table and a selection. *)
Definition dashboard (data : DataFrame) (sel : Selection) : result namespace :=
  exec (sec_filters data sel ;; sec_insights data sel ;;
        sec_head_to_head data sel ;; sec_chart_series sel ;;
        sec_top_scorers data sel) ∅.

Definition example_sel (t2 : string) : Selection :=
  mkSelection "LeagueA" "TeamX" t2 (19723, 19730).

(** ** Widget options and defaults (lines 36-45) *)

(** [series.unique()]: the distinct values, each at its first position. *)
Fixpoint unique (s : list string) : list string :=
  match s with
  | [] => []
  | x :: s' => x :: List.filter (fun y => negb (String.eqb y x)) (unique s')
  end.

(** Line 36: the leagues offered by the first select box. *)
Definition league_options (df : DataFrame) : list string :=
  unique (map League df).

(** Line 39 *)
Definition league_teams (df : DataFrame) (league : string) : DataFrame :=
  loc (fun r => String.eqb (League r) league) df.

(** Line 40: the home column followed by the away column of the league's
    rows, without repeats. *)
Definition available_teams (df : DataFrame) (league : string) : list string :=
  unique (map HomeTeam (league_teams df league)
          ++ map AwayTeam (league_teams df league)).

(** Line 42: the options of the second team box. *)
Definition team2_options (df : DataFrame) (league : string) : list string :=
  "None" :: available_teams df league.




(** ** Goals and fouls charts (lines 179-232) *)

(** [df.empty] *)
Definition empty (df : DataFrame) : bool :=
  match df with
  | [] => true
  | _ :: _ => false
  end.

(** What the goals bar chart of a team draws. *)
Record GoalsChart : Type := mkGoalsChart {
  home_goals : Z;
  away_goals : Z;
  ylim_top   : Z
}.

(** Lines 180-190 (and 194-204): the two bars and the upper limit of the
    axis, or nothing ("No data available") on an empty table. *)
Definition goals_chart (filtered_df : DataFrame) (team : string)
  : option GoalsChart :=
  if negb (empty filtered_df) then
    let home_goals := col_sum HomeGoals (loc (is_home team) filtered_df) in
    let away_goals := col_sum AwayGoals (loc (is_away team) filtered_df) in
    Some (mkGoalsChart home_goals away_goals (Z.max home_goals away_goals + 1))
  else None.


(** ** Conditions on the table used below *)

(** The team plays in the row, at home or away. *)
Definition involves (team : string) (r : MatchRecord) : bool :=
  is_home team r || is_away team r.

(** No row has the same name as home and as away team. *)
Definition no_self_fixture (df : DataFrame) : Prop :=
  Forall (fun r => HomeTeam r <> AwayTeam r) df.


(** The summary of an empty table. *)
Definition zero_summary : Insights :=
  {| TotalMatches := 0; Wins := 0; Losses := 0; Draws := 0;
     CleanSheets := 0; TotalGoalsScored := 0;
     AverageGoalsPerMatch := PyInt 0; TotalFouls := 0 |}.

(** * Properties *)

(** ** Row selection, lengths and sums *)

Section TableFacts.
Implicit Types (mask : MatchRecord -> bool) (col : MatchRecord -> Z).
Implicit Types (df : DataFrame) (r : MatchRecord).

Lemma len_nil {A} : len (@nil A) = 0.
Proof. reflexivity. Qed.

Lemma len_cons {A} (x : A) l : len (x :: l) = 1 + len l.
Proof. unfold len. cbn [length]. lia. Qed.

Lemma len_app {A} (l1 l2 : list A) : len (l1 ++ l2) = len l1 + len l2.
Proof. unfold len. rewrite length_app. lia. Qed.


Lemma loc_cons mask r df :
  loc mask (r :: df) = if mask r then r :: loc mask df else loc mask df.
Proof. reflexivity. Qed.

Lemma loc_app mask df1 df2 :
  loc mask (df1 ++ df2) = loc mask df1 ++ loc mask df2.
Proof. apply List.filter_app. Qed.

Lemma len_loc_cons mask r df :
  len (loc mask (r :: df)) = (if mask r then 1 else 0) + len (loc mask df).
Proof. rewrite loc_cons. destruct (mask r); [apply len_cons | lia]. Qed.

Lemma Series_sum_app s1 s2 :
  Series_sum (s1 ++ s2) = Series_sum s1 + Series_sum s2.
Proof.
  unfold Series_sum.
  induction s1 as [|z s1 IH]; cbn [app fold_right]; [|rewrite IH]; lia.
Qed.

Lemma col_sum_cons col r df : col_sum col (r :: df) = col r + col_sum col df.
Proof. reflexivity. Qed.

Lemma col_sum_app col df1 df2 :
  col_sum col (df1 ++ df2) = col_sum col df1 + col_sum col df2.
Proof. unfold col_sum. rewrite map_app. apply Series_sum_app. Qed.

(** Summing a column over the selected rows is summing, over all rows,
    the cell where the mask holds and 0 elsewhere. *)
Lemma col_sum_loc col mask df :
  col_sum col (loc mask df)
  = Series_sum (map (fun r => if mask r then col r else 0) df).
Proof.
  induction df as [|r df IH]; [reflexivity|].
  rewrite loc_cons. cbn [map Series_sum fold_right].
  destruct (mask r); [rewrite col_sum_cons|]; rewrite IH; reflexivity.
Qed.

Lemma Series_sum_map_add {A} (f g : A -> Z) (l : list A) :
  Series_sum (map f l) + Series_sum (map g l)
  = Series_sum (map (fun x => f x + g x) l).
Proof.
  unfold Series_sum.
  induction l as [|x l IH]; cbn [map fold_right]; [|rewrite <- IH]; lia.
Qed.

Lemma Series_sum_Permutation s1 s2 :
  Permutation s1 s2 -> Series_sum s1 = Series_sum s2.
Proof. unfold Series_sum. induction 1; cbn [fold_right] in *; lia. Qed.

Lemma loc_Permutation mask df1 df2 :
  Permutation df1 df2 -> Permutation (loc mask df1) (loc mask df2).
Proof.
  induction 1 as [|r l1 l2 _ IH|r1 r2 l|l1 l2 l3 _ IH1 _ IH2].
  - constructor.
  - rewrite !loc_cons. destruct (mask r); [constructor|]; exact IH.
  - rewrite !loc_cons. destruct (mask r1), (mask r2);
      try apply Permutation_refl. apply perm_swap.
  - eapply perm_trans; eassumption.
Qed.

Lemma col_sum_Permutation col df1 df2 :
  Permutation df1 df2 -> col_sum col df1 = col_sum col df2.
Proof.
  intros HP. apply Series_sum_Permutation, Permutation_map, HP.
Qed.
End TableFacts.

(** ** The aggregator returns, and what it returns *)

(** The division is reached only with a positive divisor, so the call
    always returns; with no rows the average is the integer 0. *)
Lemma calculate_insights_returns (S : DataFrame) (T : string) :
  exists avg, calculate_insights S T = Ok (summary S T avg)
              /\ (len S = 0 -> avg = PyInt 0).
Proof.
  unfold calculate_insights, true_divide.
  destruct (len S >? 0) eqn:Hpos.
  - destruct (len S =? 0) eqn:Hz.
    + apply Z.eqb_eq in Hz. apply Z.gtb_lt in Hpos. lia.
    + cbn [rbind]. eexists. split; [reflexivity|].
      intros H0. apply Z.gtb_lt in Hpos. lia.
  - cbn [rbind]. exists (PyInt 0). split; reflexivity.
Qed.

(** Without the guard the division would fault on an empty table. *)
Example unguarded_division_faults :
  true_divide 0 (len (@nil MatchRecord)) = Raise ZeroDivisionError.
Proof. reflexivity. Qed.

(** Rounding to two decimals, on quotients of small integers. *)
Example round2_examples :
  round2 (NpFloat (PrimFloat.div (float_of_Z 7) (float_of_Z 3))) = NpFloat 0x1.2a3d70a3d70a4p+1%float (* 2.33 *)
  /\ round2 (NpFloat (PrimFloat.div (float_of_Z 1) (float_of_Z 8))) = NpFloat 0x1.eb851eb851eb8p-4%float (* 0.12 *)
  /\ round2 (PyInt 0) = PyInt 0.
Proof. vm_compute. repeat split; reflexivity. Qed.

(** C1: for every record subset and team name the returned summary
    satisfies wins + losses + draws = total_matches, the draws being
    total_matches - wins - losses. *)
Theorem C1_wins_losses_draws_total (S : DataFrame) (T : string) :
  exists i, calculate_insights S T = Ok i
            /\ Draws i = TotalMatches i - Wins i - Losses i
            /\ Wins i + Losses i + Draws i = TotalMatches i.
Proof.
  destruct (calculate_insights_returns S T) as (avg & Heq & _).
  exists (summary S T avg). split; [exact Heq|].
  cbn [summary Draws TotalMatches Wins Losses]. split; lia.
Qed.

(** C2: on the two-record example, the summary of TeamX is
    total_matches=2, wins=1, losses=0, draws=1, clean_sheets=1,
    total_goals=2, avg_goals_per_match=1.0, total_fouls=4. *)
Theorem C2_worked_example :
  calculate_insights example_df "TeamX"
  = Ok {| TotalMatches := 2; Wins := 1; Losses := 0; Draws := 1;
          CleanSheets := 1; TotalGoalsScored := 2;
          AverageGoalsPerMatch := NpFloat 1%float; TotalFouls := 4 |}.
Proof. vm_compute. reflexivity. Qed.

(** C3: the aggregator returns on every input; on the empty subset every
    statistic is zero; and whenever total_matches is 0 the average is 0,
    the division not being evaluated. *)
Theorem C3_total_and_guarded (S : DataFrame) (T : string) :
  (exists i, calculate_insights S T = Ok i
             /\ (TotalMatches i = 0 -> AverageGoalsPerMatch i = PyInt 0))
  /\ calculate_insights [] T
     = Ok {| TotalMatches := 0; Wins := 0; Losses := 0; Draws := 0;
             CleanSheets := 0; TotalGoalsScored := 0;
             AverageGoalsPerMatch := PyInt 0; TotalFouls := 0 |}.
Proof.
  split; [|reflexivity].
  destruct (calculate_insights_returns S T) as (avg & Heq & Havg).
  exists (summary S T avg). split; [exact Heq|]. exact Havg.
Qed.

(** C5: total_goals is the sum over the records of the home-goals field
    where the team is at home plus the away-goals field where it is away,
    and total_fouls the same sum of the fouls fields. *)
Theorem C5_totals_are_contribution_sums (S : DataFrame) (T : string) :
  exists i, calculate_insights S T = Ok i
            /\ TotalGoalsScored i = Series_sum (map (goals_contribution T) S)
            /\ TotalFouls i = Series_sum (map (fouls_contribution T) S).
Proof.
  destruct (calculate_insights_returns S T) as (avg & Heq & _).
  exists (summary S T avg). split; [exact Heq|].
  cbn [summary TotalGoalsScored TotalFouls].
  rewrite !col_sum_loc, !Series_sum_map_add. split; reflexivity.
Qed.

(** C7: total_goals is the same on every reordering of the records. *)
Theorem C7_total_goals_permutation (S S' : DataFrame) (T : string) :
  Permutation S S' ->
  exists i i', calculate_insights S T = Ok i
               /\ calculate_insights S' T = Ok i'
               /\ TotalGoalsScored i = TotalGoalsScored i'.
Proof.
  intros HP.
  destruct (calculate_insights_returns S T) as (avg & Heq & _).
  destruct (calculate_insights_returns S' T) as (avg' & Heq' & _).
  exists (summary S T avg), (summary S' T avg').
  split; [exact Heq|]. split; [exact Heq'|].
  cbn [summary TotalGoalsScored].
  rewrite (col_sum_Permutation HomeGoals _ _ (loc_Permutation (is_home T) _ _ HP)).
  rewrite (col_sum_Permutation AwayGoals _ _ (loc_Permutation (is_away T) _ _ HP)).
  reflexivity.
Qed.

Lemma C7_total_goals_permutation_witness :
  exists i i', calculate_insights example_df "TeamX" = Ok i
               /\ calculate_insights (rev example_df) "TeamX" = Ok i'
               /\ TotalGoalsScored i = TotalGoalsScored i'.
Proof.
  apply (C7_total_goals_permutation example_df (rev example_df) "TeamX").
  apply perm_swap.
Defined.

(** C10: a record in which the team is neither home nor away still
    counts in total_matches, adds nothing to wins, losses, clean sheets,
    goals and fouls, and so adds one to draws. *)
Theorem C10_uninvolved_record_counts_as_draw
    (S1 S2 : DataFrame) (T : string) (r : MatchRecord) :
  HomeTeam r <> T -> AwayTeam r <> T ->
  exists i i', calculate_insights (S1 ++ S2) T = Ok i
    /\ calculate_insights (S1 ++ r :: S2) T = Ok i'
    /\ TotalMatches i' = TotalMatches i + 1
    /\ Wins i' = Wins i
    /\ Losses i' = Losses i
    /\ CleanSheets i' = CleanSheets i
    /\ TotalGoalsScored i' = TotalGoalsScored i
    /\ TotalFouls i' = TotalFouls i
    /\ Draws i' = Draws i + 1.
Proof.
  intros Hh Ha.
  apply String.eqb_neq in Hh, Ha.
  destruct (calculate_insights_returns (S1 ++ S2) T) as (avg & Heq & _).
  destruct (calculate_insights_returns (S1 ++ r :: S2) T) as (avg' & Heq' & _).
  exists (summary (S1 ++ S2) T avg), (summary (S1 ++ r :: S2) T avg').
  split; [exact Heq|]. split; [exact Heq'|].
  unfold summary.
  cbn [TotalMatches Wins Losses Draws CleanSheets TotalGoalsScored TotalFouls].
  rewrite !loc_app, !loc_cons. unfold is_home, is_away.
  rewrite Hh, Ha. cbn [andb orb].
  rewrite !len_app, len_cons. repeat split; lia.
Qed.

Lemma C10_uninvolved_record_counts_as_draw_witness :
  exists i i', calculate_insights ([] ++ example_df) "TeamZ" = Ok i
    /\ calculate_insights ([] ++ mkMatch "LeagueA" "TeamX" "TeamY" 19723 2 1 3 2
                              :: example_df) "TeamZ" = Ok i'
    /\ TotalMatches i' = TotalMatches i + 1
    /\ Wins i' = Wins i
    /\ Losses i' = Losses i
    /\ CleanSheets i' = CleanSheets i
    /\ TotalGoalsScored i' = TotalGoalsScored i
    /\ TotalFouls i' = TotalFouls i
    /\ Draws i' = Draws i + 1.
Proof.
  apply (C10_uninvolved_record_counts_as_draw
           [] example_df "TeamZ" (mkMatch "LeagueA" "TeamX" "TeamY" 19723 2 1 3 2));
    cbn; discriminate.
Defined.

(** ** Head-to-head *)

Lemma head_to_head_data_direct (df : DataFrame) (t1 t2 : string) :
  Forall (fun r => direct t1 t2 r = true) (head_to_head_data df t1 t2).
Proof.
  apply List.Forall_forall. intros r Hr.
  unfold head_to_head_data, loc in Hr.
  apply List.filter_In in Hr. exact (proj2 Hr).
Qed.

(** On direct fixtures of two different teams every row is a win of
    exactly one side or a draw. *)
Lemma direct_rows_partition (h : DataFrame) (t1 t2 : string) :
  t1 <> t2 ->
  Forall (fun r => direct t1 t2 r = true) h ->
  wins_of h t1 + wins_of h t2
  + len (loc (fun r => HomeGoals r =? AwayGoals r) h) = len h.
Proof.
  intros Hne Hall. unfold wins_of, is_home, is_away.
  induction Hall as [|r h Hr _ IH]; [reflexivity|].
  rewrite !len_loc_cons, len_cons.
  unfold direct, is_home, is_away in Hr.
  assert (Hcase : (HomeTeam r = t1 /\ AwayTeam r = t2)
                  \/ (HomeTeam r = t2 /\ AwayTeam r = t1)).
  { apply orb_prop in Hr as [Hr|Hr]; apply andb_prop in Hr as [H1 H2];
      apply String.eqb_eq in H1, H2; auto. }
  destruct Hcase as [[Hh Ha]|[Hh Ha]]; rewrite Hh, Ha;
    rewrite !String.eqb_refl;
    (assert (Hf : String.eqb t1 t2 = false) by (apply String.eqb_neq; exact Hne));
    (assert (Hf' : String.eqb t2 t1 = false) by (apply String.eqb_neq; congruence));
    rewrite ?Hf, ?Hf'; cbn [andb];
    destruct (Z.gtb_spec (HomeGoals r) (AwayGoals r));
    destruct (Z.gtb_spec (AwayGoals r) (HomeGoals r));
    destruct (Z.eqb_spec (HomeGoals r) (AwayGoals r)); lia.
Qed.

(** C6: over the direct fixtures of two distinct teams,
    team1_wins + team2_wins + draws = total_direct_matches. *)
Theorem C6_head_to_head_counts_add_up (df : DataFrame) (t1 t2 : string) :
  t1 <> t2 ->
  team1_wins df t1 t2 + team2_wins df t1 t2 + draws df t1 t2
  = total_direct_matches df t1 t2.
Proof.
  intros Hne. unfold team1_wins, team2_wins, draws, total_direct_matches.
  apply direct_rows_partition; [exact Hne|apply head_to_head_data_direct].
Qed.

Lemma C6_head_to_head_counts_add_up_witness :
  team1_wins example_df "TeamX" "TeamY" + team2_wins example_df "TeamX" "TeamY"
  + draws example_df "TeamX" "TeamY"
  = total_direct_matches example_df "TeamX" "TeamY".
Proof.
  apply (C6_head_to_head_counts_add_up example_df "TeamX" "TeamY").
  discriminate.
Defined.

(** ** The head-to-head block and the chart after it *)

(** C8: with team 2 left at the sentinel "None" the head-to-head block is
    skipped, and the chart code after it reads team1_losses, a name that
    was never bound: the run stops there with a NameError. *)
Theorem C8_chart_reads_unbound_losses (data : DataFrame) (sel : Selection) :
  selected_team2 sel = "None" ->
  dashboard data sel = Raise (NameError "team1_losses").
Proof.
  intros H2.
  destruct (calculate_insights_returns
              (team_rows data (selected_team1 sel) (date_range sel))
              (selected_team1 sel)) as (avg & Heq & _).
  unfold dashboard, exec, sec_filters, sec_insights, sec_head_to_head,
    sec_chart_series, sbind, lift, assign, load, sret.
  rewrite H2, Heq, andb_false_r.
  vm_compute. reflexivity.
Qed.

Lemma C8_chart_reads_unbound_losses_witness :
  dashboard example_df (example_sel "None") = Raise (NameError "team1_losses").
Proof.
  apply (C8_chart_reads_unbound_losses example_df (example_sel "None")).
  reflexivity.
Defined.

(** What the block leaves in the three count names: the counts over the
    direct fixtures of the whole table, or [None] when the block is
    skipped. *)
Lemma run_to_head_to_head_counts (data : DataFrame) (sel : Selection) :
  let t1 := selected_team1 sel in
  let t2 := selected_team2 sel in
  exists ns, run_to_head_to_head data sel = Ok ns
    /\ ns !! "team1_wins" = Some (count_value t1 t2 (team1_wins data t1 t2))
    /\ ns !! "team2_wins" = Some (count_value t1 t2 (team2_wins data t1 t2))
    /\ ns !! "draws" = Some (count_value t1 t2 (draws data t1 t2)).
Proof.
  intros t1 t2.
  destruct (calculate_insights_returns
              (team_rows data t1 (date_range sel)) t1) as (avg1 & Heq1 & _).
  destruct (calculate_insights_returns
              (team_rows data t2 (date_range sel)) t2) as (avg2 & Heq2 & _).
  unfold run_to_head_to_head, exec, sec_filters, sec_insights,
    sec_head_to_head, sbind, lift, assign, load, sret, count_value.
  fold t1 t2. rewrite Heq1, Heq2.
  destruct (String.eqb t2 "None"), (String.eqb t1 "None"); cbn [negb andb];
    (eexists; split; [reflexivity|]); vm_compute; repeat split; reflexivity.
Qed.


(** C9: the head-to-head counts are taken over the whole loaded table:
    two runs that differ only in the selected date range leave the same
    team1_wins, team2_wins and draws. *)
Theorem C9_head_to_head_ignores_date_range
    (data : DataFrame) (league t1 t2 : string) (dr dr' : Z * Z) :
  exists ns ns',
    run_to_head_to_head data (mkSelection league t1 t2 dr) = Ok ns
    /\ run_to_head_to_head data (mkSelection league t1 t2 dr') = Ok ns'
    /\ ns !! "team1_wins" = ns' !! "team1_wins"
    /\ ns !! "team2_wins" = ns' !! "team2_wins"
    /\ ns !! "draws" = ns' !! "draws"
    /\ ns !! "team1_wins" = Some (count_value t1 t2 (team1_wins data t1 t2))
    /\ ns !! "team2_wins" = Some (count_value t1 t2 (team2_wins data t1 t2))
    /\ ns !! "draws" = Some (count_value t1 t2 (draws data t1 t2)).
Proof.
  destruct (run_to_head_to_head_counts data (mkSelection league t1 t2 dr))
    as (ns & Hrun & Hw1 & Hw2 & Hd).
  destruct (run_to_head_to_head_counts data (mkSelection league t1 t2 dr'))
    as (ns' & Hrun' & Hw1' & Hw2' & Hd').
  cbn [selected_team1 selected_team2] in *.
  exists ns, ns'. repeat split; congruence.
Qed.

(** ** Grouped sums and the ranking *)

Section Grouping.
Context {R : Type} (key : R -> string) (val : R -> Z).

Lemma group_keys_NoDup (l : list string) : NoDup (group_keys l).
Proof.
  unfold group_keys. rewrite merge_sort_Permutation. apply NoDup_remove_dups.
Qed.

Lemma elem_of_group_keys (k : string) (l : list string) :
  k ∈ group_keys l <-> k ∈ l.
Proof.
  unfold group_keys. rewrite merge_sort_Permutation. apply elem_of_remove_dups.
Qed.

Lemma group_total_absent (k : string) (rows : list R) :
  k ∉ map key rows -> group_total key val k rows = 0.
Proof.
  unfold group_total. induction rows as [|r rows IH]; [reflexivity|].
  cbn [map List.filter]. cbn beta. intros Hk.
  apply not_elem_of_cons in Hk as [Hne Hk].
  destruct (String.eqb_spec (key r) k) as [Heq|_]; [congruence|]. apply IH, Hk.
Qed.

Lemma groupby_sum_unfold (rows : list R) :
  groupby_sum key val rows
  = map (fun k => (k, group_total key val k rows)) (group_keys (map key rows)).
Proof. reflexivity. Qed.
End Grouping.

(** In a table with one row per label, the rows labelled [k] sum to the
    entry of [k], and to 0 when [k] is not a label. *)
Lemma keyed_table_total (f : string -> Z) (k : string) (keys : list string) :
  NoDup keys ->
  group_total fst snd k (map (fun k' => (k', f k')) keys)
  = if decide (k ∈ keys) then f k else 0.
Proof.
  unfold group_total. induction keys as [|k' keys IH]; intros Hnd.
  - reflexivity.
  - apply NoDup_cons in Hnd as [Hnotin Hnd].
    cbn [map List.filter fst]. cbn beta. cbn [fst]. specialize (IH Hnd).
    destruct (String.eqb_spec k' k) as [->|Hne].
    + cbn [map Series_sum fold_right snd]. fold (Series_sum).
      unfold Series_sum in *. rewrite IH.
      rewrite decide_False by exact Hnotin.
      rewrite decide_True by apply list_elem_of_here. lia.
    + rewrite IH. destruct (decide (k ∈ keys)) as [Hin|Hout].
      * rewrite decide_True by (apply list_elem_of_further; exact Hin). reflexivity.
      * rewrite decide_False; [reflexivity|].
        intros Hin. apply elem_of_cons in Hin as [->|Hin]; [done|]. exact (Hout Hin).
Qed.

(** Regrouping a grouped table gives back, label by label, the sums of
    the rows it was grouped from. *)
Lemma group_total_groupby_sum {R : Type} (key : R -> string) (val : R -> Z)
    (k : string) (rows : list R) :
  group_total fst snd k (groupby_sum key val rows) = group_total key val k rows.
Proof.
  rewrite groupby_sum_unfold.
  rewrite (keyed_table_total (fun k' => group_total key val k' rows))
    by apply group_keys_NoDup.
  destruct (decide (k ∈ group_keys (map key rows))) as [Hin|Hout]; [reflexivity|].
  symmetry. apply group_total_absent. intros Hin. apply Hout.
  apply elem_of_group_keys, Hin.
Qed.

Lemma group_total_app {R : Type} (key : R -> string) (val : R -> Z)
    (k : string) (l1 l2 : list R) :
  group_total key val k (l1 ++ l2)
  = group_total key val k l1 + group_total key val k l2.
Proof.
  unfold group_total. rewrite List.filter_app, map_app. apply Series_sum_app.
Qed.

(** Every row of the combined table carries its team's home goals plus
    its away goals over the record set. *)
Lemma total_goals_by_team_rows (fl : DataFrame) :
  Forall (fun e => snd e = col_sum HomeGoals (loc (is_home (fst e)) fl)
                           + col_sum AwayGoals (loc (is_away (fst e)) fl))
         (total_goals_by_team fl).
Proof.
  unfold total_goals_by_team. rewrite groupby_sum_unfold.
  apply List.Forall_forall. intros e He.
  apply List.in_map_iff in He as (k & <- & _). cbn [fst snd].
  rewrite group_total_app, !group_total_groupby_sum. reflexivity.
Qed.

Section Ranking.
Implicit Types (x y : string * Z) (l : list (string * Z)).

Lemma insert_desc_In x y l : In y (insert_desc x l) <-> y = x \/ In y l.
Proof.
  induction l as [|z l IH]; cbn [insert_desc In].
  - intuition.
  - destruct (snd z >? snd x); cbn [In]; [rewrite IH|]; intuition.
Qed.

Lemma sort_desc_In y l : In y (sort_desc l) <-> In y l.
Proof.
  unfold sort_desc. induction l as [|x l IH]; cbn [fold_right In]; [tauto|].
  rewrite insert_desc_In, IH. intuition.
Qed.

Lemma insert_desc_sorted x l : sorted_desc l -> sorted_desc (insert_desc x l).
Proof.
  unfold sorted_desc. induction 1 as [|z l Hs IH Hz]; cbn [insert_desc].
  - repeat constructor.
  - destruct (Z.gtb_spec (snd z) (snd x)) as [Hgt|Hle].
    + constructor; [exact IH|].
      apply List.Forall_forall. intros y Hy.
      apply insert_desc_In in Hy as [->|Hy]; [lia|].
      rewrite List.Forall_forall in Hz. apply Hz, Hy.
    + constructor; [constructor; assumption|].
      constructor; [lia|].
      rewrite List.Forall_forall in Hz |- *. intros y Hy.
      specialize (Hz y Hy). lia.
Qed.

Lemma sort_desc_sorted l : sorted_desc (sort_desc l).
Proof.
  unfold sort_desc. induction l as [|x l IH]; cbn [fold_right].
  - constructor.
  - apply insert_desc_sorted, IH.
Qed.

Lemma firstn_sorted_desc n l : sorted_desc l -> sorted_desc (firstn n l).
Proof.
  unfold sorted_desc. intros Hs. revert n.
  induction Hs as [|z l Hs IH Hz]; intros [|n]; cbn [firstn];
    try constructor.
  - apply IH.
  - apply Forall_take, Hz.
Qed.

Lemma nlargest_In n y l : In y (nlargest n l) -> In y l.
Proof.
  unfold nlargest. intros Hy. apply sort_desc_In.
  apply list_elem_of_In. apply list_elem_of_In in Hy.
  exact (subseteq_take n _ _ Hy).
Qed.
End Ranking.

(** The ranking on a small table: seven teams, the lowest total is cut,
    and equal totals keep the order of the grouped table. *)
Example top_scorers_example :
  top_scorers
    [ mkMatch "L" "A" "B" 1 1 0 0 0; mkMatch "L" "C" "D" 2 2 2 0 0;
      mkMatch "L" "E" "F" 3 3 1 0 0; mkMatch "L" "G" "A" 4 0 4 0 0;
      mkMatch "M" "A" "B" 5 9 9 0 0; mkMatch "L" "B" "C" 9 5 5 0 0 ]
    "L" (1, 8)
  = [("A", 5); ("E", 3); ("C", 2); ("D", 2); ("F", 1); ("B", 0)].
Proof. vm_compute. reflexivity. Qed.

(** C4: on every league and date-range restricted record set the ranking
    has at most 6 entries, is in descending order of total goals, and
    lists for each returned team its home goals (grouped by home-team
    name) plus its away goals (grouped by away-team name) over that set. *)
Theorem C4_top_scorers_ranking (df : DataFrame) (league : string) (dr : Z * Z) :
  let fl := filtered_league_data df league dr in
  let top := top_scorers df league dr in
  (length top <= 6)%nat
  /\ sorted_desc top
  /\ Forall (fun e => snd e = group_total HomeTeam HomeGoals (fst e) fl
                              + group_total AwayTeam AwayGoals (fst e) fl) top
  /\ Forall (fun e => snd e = col_sum HomeGoals (loc (is_home (fst e)) fl)
                              + col_sum AwayGoals (loc (is_away (fst e)) fl)) top.
Proof.
  intros fl top. unfold top, top_scorers. fold fl.
  assert (Hrows : Forall (fun e => snd e = col_sum HomeGoals (loc (is_home (fst e)) fl)
                              + col_sum AwayGoals (loc (is_away (fst e)) fl))
                         (nlargest 6 (total_goals_by_team fl))).
  { apply List.Forall_forall. intros e He. apply nlargest_In in He.
    pose proof (total_goals_by_team_rows fl) as Hall.
    rewrite List.Forall_forall in Hall. apply Hall, He. }
  split; [apply List.firstn_le_length|].
  split; [apply firstn_sorted_desc, sort_desc_sorted|].
  split; exact Hrows.
Qed.

(** * Further properties of the script *)

(** ** The aggregator on arbitrary tables *)

Lemma len_Permutation {A} (l1 l2 : list A) :
  Permutation l1 l2 -> len l1 = len l2.
Proof. intros HP. unfold len. rewrite (Permutation_length HP). reflexivity. Qed.

Lemma len_loc_Permutation (mask : MatchRecord -> bool) (df1 df2 : DataFrame) :
  Permutation df1 df2 -> len (loc mask df1) = len (loc mask df2).
Proof. intros HP. apply len_Permutation, loc_Permutation, HP. Qed.

(** X1: the whole summary, average included, does not depend on the order
    of the records. *)
Theorem calculate_insights_Permutation (S S' : DataFrame) (T : string) :
  Permutation S S' -> calculate_insights S T = calculate_insights S' T.
Proof.
  intros HP. unfold calculate_insights.
  rewrite !(len_loc_Permutation _ _ _ HP).
  rewrite (col_sum_Permutation HomeGoals _ _ (loc_Permutation (is_home T) _ _ HP)).
  rewrite (col_sum_Permutation AwayGoals _ _ (loc_Permutation (is_away T) _ _ HP)).
  rewrite (col_sum_Permutation HomeFouls _ _ (loc_Permutation (is_home T) _ _ HP)).
  rewrite (col_sum_Permutation AwayFouls _ _ (loc_Permutation (is_away T) _ _ HP)).
  rewrite (len_Permutation _ _ HP). reflexivity.
Qed.

Lemma calculate_insights_Permutation_witness :
  calculate_insights example_df "TeamY" = calculate_insights (rev example_df) "TeamY".
Proof.
  apply (calculate_insights_Permutation example_df (rev example_df) "TeamY").
  apply perm_swap.
Defined.

Lemma len_loc_bounds (mask : MatchRecord -> bool) (df : DataFrame) :
  0 <= len (loc mask df) <= len df.
Proof.
  induction df as [|r df IH]; [unfold len, loc; cbn; lia|].
  rewrite len_loc_cons, len_cons. destruct (mask r); lia.
Qed.

(** Two masks that never hold on the same row select at most the whole
    table between them. *)
Lemma len_loc_disjoint (m1 m2 : MatchRecord -> bool) (df : DataFrame) :
  (forall r, m1 r && m2 r = false) ->
  len (loc m1 df) + len (loc m2 df) <= len df.
Proof.
  intros Hdis. induction df as [|r df IH]; [unfold len, loc; cbn; lia|].
  rewrite !len_loc_cons, len_cons. specialize (Hdis r).
  destruct (m1 r), (m2 r); cbn in Hdis; try discriminate; lia.
Qed.

(** X2: wins, losses and clean sheets are counts of rows: each lies
    between 0 and total_matches, on every table and team name. *)
Theorem counts_within_total_matches (S : DataFrame) (T : string) :
  exists i, calculate_insights S T = Ok i
    /\ 0 <= Wins i <= TotalMatches i
    /\ 0 <= Losses i <= TotalMatches i
    /\ 0 <= CleanSheets i <= TotalMatches i.
Proof.
  destruct (calculate_insights_returns S T) as (avg & Heq & _).
  exists (summary S T avg). split; [exact Heq|].
  cbn [summary TotalMatches Wins Losses CleanSheets].
  pose proof (len_loc_disjoint
    (fun r => is_home T r && (HomeGoals r >? AwayGoals r))
    (fun r => is_away T r && (AwayGoals r >? HomeGoals r)) S) as Hw.
  pose proof (len_loc_disjoint
    (fun r => is_home T r && (HomeGoals r <? AwayGoals r))
    (fun r => is_away T r && (AwayGoals r <? HomeGoals r)) S) as Hl.
  pose proof (len_loc_bounds (fun r => is_home T r && (HomeGoals r >? AwayGoals r)) S).
  pose proof (len_loc_bounds (fun r => is_away T r && (AwayGoals r >? HomeGoals r)) S).
  pose proof (len_loc_bounds (fun r => is_home T r && (HomeGoals r <? AwayGoals r)) S).
  pose proof (len_loc_bounds (fun r => is_away T r && (AwayGoals r <? HomeGoals r)) S).
  pose proof (len_loc_bounds (fun r => (is_home T r && (AwayGoals r =? 0)) ||
                                       (is_away T r && (HomeGoals r =? 0))) S).
  assert (Hw' : forall r, (is_home T r && (HomeGoals r >? AwayGoals r))
                          && (is_away T r && (AwayGoals r >? HomeGoals r)) = false).
  { intros r.
    destruct (Z.gtb_spec (HomeGoals r) (AwayGoals r));
      destruct (Z.gtb_spec (AwayGoals r) (HomeGoals r));
      destruct (is_home T r), (is_away T r); cbn [andb];
      first [reflexivity | exfalso; lia]. }
  assert (Hl' : forall r, (is_home T r && (HomeGoals r <? AwayGoals r))
                          && (is_away T r && (AwayGoals r <? HomeGoals r)) = false).
  { intros r.
    destruct (Z.ltb_spec (HomeGoals r) (AwayGoals r));
      destruct (Z.ltb_spec (AwayGoals r) (HomeGoals r));
      destruct (is_home T r), (is_away T r); cbn [andb];
      first [reflexivity | exfalso; lia]. }
  specialize (Hw Hw'). specialize (Hl Hl'). lia.
Qed.

(** X4: the integer statistics of a concatenated table are the sums of
    those of its parts. *)
Theorem calculate_insights_app (S1 S2 : DataFrame) (T : string) :
  exists i1 i2 i,
    calculate_insights S1 T = Ok i1
    /\ calculate_insights S2 T = Ok i2
    /\ calculate_insights (S1 ++ S2) T = Ok i
    /\ TotalMatches i = TotalMatches i1 + TotalMatches i2
    /\ Wins i = Wins i1 + Wins i2
    /\ Losses i = Losses i1 + Losses i2
    /\ Draws i = Draws i1 + Draws i2
    /\ CleanSheets i = CleanSheets i1 + CleanSheets i2
    /\ TotalGoalsScored i = TotalGoalsScored i1 + TotalGoalsScored i2
    /\ TotalFouls i = TotalFouls i1 + TotalFouls i2.
Proof.
  destruct (calculate_insights_returns S1 T) as (avg1 & Heq1 & _).
  destruct (calculate_insights_returns S2 T) as (avg2 & Heq2 & _).
  destruct (calculate_insights_returns (S1 ++ S2) T) as (avg & Heq & _).
  exists (summary S1 T avg1), (summary S2 T avg2), (summary (S1 ++ S2) T avg).
  split; [exact Heq1|]. split; [exact Heq2|]. split; [exact Heq|].
  unfold summary.
  cbn [TotalMatches Wins Losses Draws CleanSheets TotalGoalsScored TotalFouls].
  rewrite !loc_app, !len_app, !col_sum_app. repeat split; lia.
Qed.

(** ** The aggregator on the rows the script passes to it *)

Lemma loc_In (mask : MatchRecord -> bool) (df : DataFrame) (r : MatchRecord) :
  In r (loc mask df) <-> In r df /\ mask r = true.
Proof. apply List.filter_In. Qed.

Lemma loc_Forall (P : MatchRecord -> Prop) (mask : MatchRecord -> bool)
    (df : DataFrame) :
  Forall P df -> Forall P (loc mask df).
Proof.
  rewrite !List.Forall_forall. intros H r Hr. apply loc_In in Hr. apply H, Hr.
Qed.

Lemma loc_nil_iff (mask : MatchRecord -> bool) (df : DataFrame) :
  loc mask df = [] <-> forall r, In r df -> mask r = false.
Proof.
  induction df as [|r df IH]; [cbn; tauto|].
  rewrite loc_cons. split.
  - intros H. destruct (mask r) eqn:Hm; [discriminate|].
    intros r' [<-|Hr']; [exact Hm|]. apply IH; assumption.
  - intros H. rewrite (H r (or_introl eq_refl)). apply IH.
    intros r' Hr'. apply H. right. exact Hr'.
Qed.

Lemma team_rows_involve (df : DataFrame) (T : string) (dr : Z * Z) :
  Forall (fun r => involves T r = true /\ in_range dr r = true) (team_rows df T dr).
Proof.
  apply List.Forall_forall. intros r Hr. apply loc_In in Hr as [_ Hr].
  apply andb_prop in Hr. exact Hr.
Qed.

(** On rows that all involve the team, none of them a fixture of the team
    against itself, every row is a win, a loss or an equal score. *)
Lemma involved_rows_partition (S : DataFrame) (T : string) :
  Forall (fun r => involves T r = true) S ->
  no_self_fixture S ->
  len (loc (fun r => is_home T r && (HomeGoals r >? AwayGoals r)) S)
  + len (loc (fun r => is_away T r && (AwayGoals r >? HomeGoals r)) S)
  + (len (loc (fun r => is_home T r && (HomeGoals r <? AwayGoals r)) S)
     + len (loc (fun r => is_away T r && (AwayGoals r <? HomeGoals r)) S))
  + len (loc (fun r => HomeGoals r =? AwayGoals r) S)
  = len S.
Proof.
  unfold no_self_fixture, involves, is_home, is_away.
  induction 1 as [|r S Hr _ IH]; intros Hns; [reflexivity|].
  apply List.Forall_cons_iff in Hns as [Hne Hns]. specialize (IH Hns).
  rewrite !len_loc_cons, len_cons.
  destruct (String.eqb_spec (HomeTeam r) T) as [Hh|Hh];
    destruct (String.eqb_spec (AwayTeam r) T) as [Ha|Ha];
    try congruence; try discriminate; cbn [andb];
    destruct (Z.gtb_spec (HomeGoals r) (AwayGoals r));
    destruct (Z.gtb_spec (AwayGoals r) (HomeGoals r));
    destruct (Z.ltb_spec (HomeGoals r) (AwayGoals r));
    destruct (Z.ltb_spec (AwayGoals r) (HomeGoals r));
    destruct (Z.eqb_spec (HomeGoals r) (AwayGoals r)); lia.
Qed.

(** X3: on the rows the script filters for a team, in a table where no
    row has the same home and away team, the draws of the summary are
    exactly the rows with equal scores. *)
Theorem draws_on_team_rows (df : DataFrame) (T : string) (dr : Z * Z) :
  no_self_fixture df ->
  exists i, calculate_insights (team_rows df T dr) T = Ok i
    /\ Draws i = len (loc (fun r => HomeGoals r =? AwayGoals r) (team_rows df T dr))
    /\ 0 <= Draws i.
Proof.
  intros Hns.
  destruct (calculate_insights_returns (team_rows df T dr) T) as (avg & Heq & _).
  exists (summary (team_rows df T dr) T avg). split; [exact Heq|].
  cbn [summary Draws].
  assert (Hinv : Forall (fun r => involves T r = true) (team_rows df T dr)).
  { eapply List.Forall_impl; [|apply team_rows_involve]. intros r [H _]. exact H. }
  pose proof (involved_rows_partition _ T Hinv (loc_Forall _ _ _ Hns)) as Hpart.
  pose proof (len_loc_bounds (fun r => HomeGoals r =? AwayGoals r) (team_rows df T dr)).
  fold (team_rows df T dr) in Hpart. lia.
Qed.

Lemma draws_on_team_rows_witness :
  exists i, calculate_insights (team_rows example_df "TeamX" (19723, 19730)) "TeamX" = Ok i
    /\ Draws i = len (loc (fun r => HomeGoals r =? AwayGoals r)
                          (team_rows example_df "TeamX" (19723, 19730)))
    /\ 0 <= Draws i.
Proof.
  apply (draws_on_team_rows example_df "TeamX" (19723, 19730)).
  repeat constructor; cbn; discriminate.
Defined.

(** X10: a date range whose start is after its end selects no row: the
    team's table is empty, its summary is all zeros with the integer
    average 0, its goals chart is not drawn and the ranking is empty. *)
Theorem inverted_date_range (df : DataFrame) (T league : string) (dr : Z * Z) :
  snd dr < fst dr ->
  team_rows df T dr = []
  /\ calculate_insights (team_rows df T dr) T = Ok zero_summary
  /\ goals_chart (team_rows df T dr) T = None
  /\ top_scorers df league dr = [].
Proof.
  intros Hinv.
  assert (Hout : forall r, in_range dr r = false).
  { intros r. unfold in_range.
    destruct (Z.geb_spec (Date r) (fst dr)); destruct (Z.leb_spec (Date r) (snd dr));
      cbn; first [reflexivity | exfalso; lia]. }
  assert (Hrows : team_rows df T dr = []).
  { apply loc_nil_iff. intros r _. rewrite Hout. apply andb_false_r. }
  assert (Hleague : filtered_league_data df league dr = []).
  { apply loc_nil_iff. intros r _. rewrite Hout. apply andb_false_r. }
  rewrite Hrows. unfold top_scorers. rewrite Hleague.
  repeat split; reflexivity.
Qed.

Lemma inverted_date_range_witness :
  team_rows example_df "TeamX" (19730, 19723) = []
  /\ calculate_insights (team_rows example_df "TeamX" (19730, 19723)) "TeamX"
     = Ok zero_summary
  /\ goals_chart (team_rows example_df "TeamX" (19730, 19723)) "TeamX" = None
  /\ top_scorers example_df "LeagueA" (19730, 19723) = [].
Proof.
  apply (inverted_date_range example_df "TeamX" "LeagueA" (19730, 19723)).
  cbn. lia.
Defined.

(** ** Head-to-head: symmetry, losses and the aggregator *)

Lemma loc_ext (m1 m2 : MatchRecord -> bool) (df : DataFrame) :
  (forall r, m1 r = m2 r) -> loc m1 df = loc m2 df.
Proof. intros H. apply List.filter_ext, H. Qed.

(** X6: exchanging the two selected teams selects the same fixtures and
    exchanges the two win counts; draws and the number of fixtures stay. *)
Theorem head_to_head_swap (df : DataFrame) (t1 t2 : string) :
  head_to_head_data df t1 t2 = head_to_head_data df t2 t1
  /\ team1_wins df t1 t2 = team2_wins df t2 t1
  /\ team2_wins df t1 t2 = team1_wins df t2 t1
  /\ draws df t1 t2 = draws df t2 t1
  /\ total_direct_matches df t1 t2 = total_direct_matches df t2 t1.
Proof.
  assert (Hswap : head_to_head_data df t1 t2 = head_to_head_data df t2 t1).
  { apply loc_ext. intros r. apply orb_comm. }
  unfold team1_wins, team2_wins, draws, total_direct_matches.
  rewrite Hswap. repeat split; reflexivity.
Qed.

(** On direct fixtures of two different teams, the rows one side loses
    are the rows the other side wins. *)
Lemma direct_rows_losses (h : DataFrame) (t1 t2 : string) :
  t1 <> t2 ->
  Forall (fun r => direct t1 t2 r = true) h ->
  len (loc (fun r => is_home t1 r && (HomeGoals r <? AwayGoals r)) h)
  + len (loc (fun r => is_away t1 r && (AwayGoals r <? HomeGoals r)) h)
  = wins_of h t2.
Proof.
  intros Hne Hall. unfold wins_of, is_home, is_away.
  assert (Hf : String.eqb t1 t2 = false) by (apply String.eqb_neq; exact Hne).
  assert (Hf' : String.eqb t2 t1 = false) by (apply String.eqb_neq; congruence).
  induction Hall as [|r h Hr _ IH]; [reflexivity|].
  rewrite !len_loc_cons.
  unfold direct, is_home, is_away in Hr.
  apply orb_prop in Hr as [Hr|Hr]; apply andb_prop in Hr as [H1 H2];
    apply String.eqb_eq in H1, H2; rewrite H1, H2, !String.eqb_refl, ?Hf, ?Hf';
    cbn [andb];
    destruct (Z.gtb_spec (HomeGoals r) (AwayGoals r));
    destruct (Z.gtb_spec (AwayGoals r) (HomeGoals r));
    destruct (Z.ltb_spec (HomeGoals r) (AwayGoals r));
    destruct (Z.ltb_spec (AwayGoals r) (HomeGoals r)); lia.
Qed.

(** X5: on the direct fixtures of two distinct teams the aggregator
    agrees with the head-to-head block: its wins, losses and draws for
    team 1 are team1_wins, team2_wins and draws. *)
Theorem insights_on_head_to_head (df : DataFrame) (t1 t2 : string) :
  t1 <> t2 ->
  exists i, calculate_insights (head_to_head_data df t1 t2) t1 = Ok i
    /\ TotalMatches i = total_direct_matches df t1 t2
    /\ Wins i = team1_wins df t1 t2
    /\ Losses i = team2_wins df t1 t2
    /\ Draws i = draws df t1 t2.
Proof.
  intros Hne.
  destruct (calculate_insights_returns (head_to_head_data df t1 t2) t1)
    as (avg & Heq & _).
  exists (summary (head_to_head_data df t1 t2) t1 avg). split; [exact Heq|].
  cbn [summary TotalMatches Wins Losses Draws].
  pose proof (direct_rows_losses _ t1 t2 Hne (head_to_head_data_direct df t1 t2)) as Hl.
  pose proof (direct_rows_partition _ t1 t2 Hne (head_to_head_data_direct df t1 t2)) as Hp.
  unfold team1_wins, team2_wins, draws, total_direct_matches.
  rewrite Hl. unfold wins_of in *. repeat split; lia.
Qed.

Lemma insights_on_head_to_head_witness :
  exists i, calculate_insights (head_to_head_data example_df "TeamX" "TeamY") "TeamX" = Ok i
    /\ TotalMatches i = total_direct_matches example_df "TeamX" "TeamY"
    /\ Wins i = team1_wins example_df "TeamX" "TeamY"
    /\ Losses i = team2_wins example_df "TeamX" "TeamY"
    /\ Draws i = draws example_df "TeamX" "TeamY".
Proof.
  apply (insights_on_head_to_head example_df "TeamX" "TeamY"). discriminate.
Defined.





(** X9: with the same team selected on both sides, in a table where no
    row has the same home and away team, there is no direct fixture and
    every head-to-head count is 0. *)
Theorem head_to_head_same_team (df : DataFrame) (t : string) :
  no_self_fixture df ->
  head_to_head_data df t t = []
  /\ team1_wins df t t = 0 /\ team2_wins df t t = 0
  /\ draws df t t = 0 /\ total_direct_matches df t t = 0.
Proof.
  intros Hns.
  assert (Hnil : head_to_head_data df t t = []).
  { apply loc_nil_iff. intros r Hr.
    unfold no_self_fixture in Hns. rewrite List.Forall_forall in Hns.
    specialize (Hns r Hr). unfold is_home, is_away.
    destruct (String.eqb_spec (HomeTeam r) t); destruct (String.eqb_spec (AwayTeam r) t);
      cbn; try reflexivity. congruence. }
  unfold team1_wins, team2_wins, draws, total_direct_matches.
  rewrite Hnil. repeat split; reflexivity.
Qed.

Lemma head_to_head_same_team_witness :
  head_to_head_data example_df "TeamX" "TeamX" = []
  /\ team1_wins example_df "TeamX" "TeamX" = 0
  /\ team2_wins example_df "TeamX" "TeamX" = 0
  /\ draws example_df "TeamX" "TeamX" = 0
  /\ total_direct_matches example_df "TeamX" "TeamX" = 0.
Proof.
  apply (head_to_head_same_team example_df "TeamX").
  repeat constructor; cbn; discriminate.
Defined.

(** ** Widget options and the default date range *)

Lemma unique_In (x : string) (s : list string) : In x (unique s) <-> In x s.
Proof.
  induction s as [|y s IH]; [reflexivity|].
  cbn [unique In]. rewrite List.filter_In, IH.
  destruct (String.eqb_spec x y) as [->|Hne]; cbn [negb].
  - intuition.
  - split; [intros [H|[H _]]; auto|intros [H|H]; auto].
Qed.

Lemma unique_NoDup (s : list string) : NoDup (unique s).
Proof.
  induction s as [|y s IH]; cbn [unique]; constructor.
  - intros Hin. apply list_elem_of_In, List.filter_In in Hin as [_ Hin].
    rewrite String.eqb_refl in Hin. discriminate.
  - apply NoDup_ListNoDup, List.NoDup_filter, NoDup_ListNoDup, IH.
Qed.

Lemma available_teams_In (df : DataFrame) (league t : string) :
  In t (available_teams df league)
  <-> exists r, In r df /\ League r = league /\ (HomeTeam r = t \/ AwayTeam r = t).
Proof.
  unfold available_teams, league_teams.
  rewrite unique_In, List.in_app_iff, !List.in_map_iff. split.
  - intros [(r & Hr & Hin)|(r & Hr & Hin)]; apply loc_In in Hin as [Hin Hl];
      apply String.eqb_eq in Hl; exists r; auto.
  - intros (r & Hin & Hl & [Ht|Ht]); [left|right]; exists r;
      (split; [exact Ht|]); apply loc_In; (split; [exact Hin|]);
      apply String.eqb_eq, Hl.
Qed.

(** X11: the teams offered by the select boxes are listed once each, and
    they are exactly the names that occur as home or away team in a row
    of the selected league. *)
Theorem available_teams_spec (df : DataFrame) (league : string) :
  NoDup (available_teams df league)
  /\ forall t, In t (available_teams df league)
       <-> exists r, In r df /\ League r = league
                     /\ (HomeTeam r = t \/ AwayTeam r = t).
Proof.
  split; [apply unique_NoDup|]. intros t. apply available_teams_In.
Qed.









(** ** Charts *)


(** ** The ranking: who is listed and who is left out *)

Lemma insert_desc_Permutation (x : string * Z) (l : list (string * Z)) :
  Permutation (insert_desc x l) (x :: l).
Proof.
  induction l as [|y l IH]; cbn [insert_desc]; [reflexivity|].
  destruct (snd y >? snd x); [|reflexivity].
  rewrite IH. apply perm_swap.
Qed.

Lemma sort_desc_Permutation (l : list (string * Z)) : Permutation (sort_desc l) l.
Proof.
  unfold sort_desc. induction l as [|x l IH]; cbn [fold_right]; [reflexivity|].
  rewrite insert_desc_Permutation, IH. reflexivity.
Qed.

Lemma groupby_sum_labels {R : Type} (key : R -> string) (val : R -> Z)
    (rows : list R) :
  map fst (groupby_sum key val rows) = group_keys (map key rows).
Proof.
  rewrite groupby_sum_unfold, List.map_map. cbn [fst]. apply List.map_id.
Qed.

Lemma In_group_keys (k : string) (l : list string) : In k (group_keys l) <-> In k l.
Proof. rewrite <- !list_elem_of_In. apply elem_of_group_keys. Qed.

(** The teams of the combined table are the names that occur as home or
    away team. *)
Lemma total_goals_by_team_labels (fl : DataFrame) (t : string) :
  In t (map fst (total_goals_by_team fl))
  <-> exists r, In r fl /\ (HomeTeam r = t \/ AwayTeam r = t).
Proof.
  unfold total_goals_by_team.
  rewrite groupby_sum_labels, In_group_keys, map_app, List.in_app_iff.
  rewrite !groupby_sum_labels, !In_group_keys, !List.in_map_iff. split.
  - intros [(r & Hr & Hin)|(r & Hr & Hin)]; exists r; auto.
  - intros (r & Hin & [Ht|Ht]); [left|right]; exists r; auto.
Qed.

Lemma top_scorers_In (df : DataFrame) (league : string) (dr : Z * Z)
    (e : string * Z) :
  In e (top_scorers df league dr) ->
  In e (total_goals_by_team (filtered_league_data df league dr)).
Proof. apply nlargest_In. Qed.

(** X15: no team is listed twice in the ranking. *)
Theorem top_scorers_distinct_teams (df : DataFrame) (league : string) (dr : Z * Z) :
  NoDup (map fst (top_scorers df league dr)).
Proof.
  unfold top_scorers, nlargest. rewrite <- List.firstn_map.
  eapply sublist_NoDup; [|apply sublist_take].
  rewrite (Permutation_map fst (sort_desc_Permutation _)).
  unfold total_goals_by_team. rewrite groupby_sum_labels.
  apply group_keys_NoDup.
Qed.

(** X16: every listed team plays, at home or away, in a row of the
    selected league inside the date range. *)
Theorem top_scorers_play_in_window (df : DataFrame) (league : string) (dr : Z * Z) :
  Forall (fun e => exists r, In r df /\ League r = league /\ in_range dr r = true
                             /\ (HomeTeam r = fst e \/ AwayTeam r = fst e))
         (top_scorers df league dr).
Proof.
  apply List.Forall_forall. intros e He. apply top_scorers_In in He.
  apply (List.in_map fst) in He. apply total_goals_by_team_labels in He
    as (r & Hr & Hplays).
  apply loc_In in Hr as [Hr Hm]. apply andb_prop in Hm as [Hl Hd].
  apply String.eqb_eq in Hl. exists r. auto.
Qed.

(** X17: a team that plays in the window and is left out of the ranking
    has a combined total that is at most every listed total. *)
Theorem top_scorers_are_largest (df : DataFrame) (league : string) (dr : Z * Z) :
  let fl := filtered_league_data df league dr in
  forall r t, In r fl -> (HomeTeam r = t \/ AwayTeam r = t) ->
    ~ In t (map fst (top_scorers df league dr)) ->
    Forall (fun e => group_total HomeTeam HomeGoals t fl
                     + group_total AwayTeam AwayGoals t fl <= snd e)
           (top_scorers df league dr).
Proof.
  intros fl r t Hr Hplays Hout.
  assert (Hlab : In t (map fst (total_goals_by_team fl))).
  { apply total_goals_by_team_labels. exists r. auto. }
  apply List.in_map_iff in Hlab as (e0 & Hfst & He0).
  pose proof (total_goals_by_team_rows fl) as Hrows.
  rewrite List.Forall_forall in Hrows. pose proof (Hrows e0 He0) as Htot.
  rewrite Hfst in Htot. unfold group_total. fold (loc (is_home t) fl).
  apply List.Forall_forall. intros e He.
  change (col_sum HomeGoals (loc (is_home t) fl)
          + col_sum AwayGoals (loc (is_away t) fl) <= snd e).
  rewrite <- Htot.
  pose proof (sort_desc_sorted (total_goals_by_team fl)) as Hs.
  unfold sorted_desc in Hs.
  rewrite <- (List.firstn_skipn 6 (sort_desc (total_goals_by_team fl))) in Hs.
  assert (Hrest : In e0 (skipn 6 (sort_desc (total_goals_by_team fl)))).
  { apply sort_desc_In in He0.
    rewrite <- (List.firstn_skipn 6 (sort_desc (total_goals_by_team fl))) in He0.
    apply List.in_app_or in He0 as [Hin|Hin]; [|exact Hin].
    exfalso. apply Hout. rewrite <- Hfst. apply List.in_map. exact Hin. }
  pose proof (StronglySorted_app_1_elem_of _ _ _ e e0 Hs) as Hge.
  rewrite !list_elem_of_In in Hge. specialize (Hge He Hrest). lia.
Qed.

Lemma top_scorers_are_largest_witness :
  Forall (fun e => group_total HomeTeam HomeGoals "G"
                     (filtered_league_data
                        [ mkMatch "L" "A" "B" 1 1 0 0 0; mkMatch "L" "C" "D" 2 2 2 0 0;
                          mkMatch "L" "E" "F" 3 3 1 0 0; mkMatch "L" "G" "A" 4 0 4 0 0 ]
                        "L" (1, 8))
                   + group_total AwayTeam AwayGoals "G"
                       (filtered_league_data
                          [ mkMatch "L" "A" "B" 1 1 0 0 0; mkMatch "L" "C" "D" 2 2 2 0 0;
                            mkMatch "L" "E" "F" 3 3 1 0 0; mkMatch "L" "G" "A" 4 0 4 0 0 ]
                          "L" (1, 8)) <= snd e)
         (top_scorers
            [ mkMatch "L" "A" "B" 1 1 0 0 0; mkMatch "L" "C" "D" 2 2 2 0 0;
              mkMatch "L" "E" "F" 3 3 1 0 0; mkMatch "L" "G" "A" 4 0 4 0 0 ]
            "L" (1, 8)).
Proof.
  apply (top_scorers_are_largest
           [ mkMatch "L" "A" "B" 1 1 0 0 0; mkMatch "L" "C" "D" 2 2 2 0 0;
             mkMatch "L" "E" "F" 3 3 1 0 0; mkMatch "L" "G" "A" 4 0 4 0 0 ]
           "L" (1, 8) (mkMatch "L" "G" "A" 4 0 4 0 0) "G").
  - vm_compute. do 3 right. left. reflexivity.
  - left. reflexivity.
  - vm_compute. intros H. repeat (destruct H as [H|H]; [discriminate|]). exact H.
Defined.

(** X18: the ranking lists 6 teams, or all of them when fewer play in
    the window; with at most 6 teams it is a reordering of the whole
    combined table. *)
Theorem top_scorers_length (df : DataFrame) (league : string) (dr : Z * Z) :
  let table := total_goals_by_team (filtered_league_data df league dr) in
  length (top_scorers df league dr) = Nat.min 6 (length table)
  /\ ((length table <= 6)%nat -> Permutation (top_scorers df league dr) table).
Proof.
  intros table. unfold top_scorers, nlargest. fold table. split.
  - rewrite List.length_firstn, (Permutation_length (sort_desc_Permutation table)).
    reflexivity.
  - intros Hle. rewrite List.firstn_all2; [apply sort_desc_Permutation|].
    rewrite (Permutation_length (sort_desc_Permutation table)). exact Hle.
Qed.

(** ** The ranking: totals *)

Lemma Series_sum_indicator (k0 : string) (v : Z) (keys : list string) :
  NoDup keys -> In k0 keys ->
  Series_sum (map (fun k => if String.eqb k0 k then v else 0) keys) = v.
Proof.
  unfold Series_sum. induction 1 as [|k keys Hnotin Hnd IH]; intros Hin; [destruct Hin|].
  cbn [map fold_right]. destruct (String.eqb_spec k0 k) as [->|Hne].
  - assert (Hzero : forall l : list string, ~ In k l ->
              fold_right Z.add 0 (map (fun k' => if String.eqb k k' then v else 0) l) = 0).
    { induction l as [|k' l IHl]; intros Hout; [reflexivity|].
      cbn [map fold_right]. destruct (String.eqb_spec k k') as [->|_].
      - exfalso. apply Hout. left. reflexivity.
      - rewrite IHl; [lia|]. intros H. apply Hout. right. exact H. }
    rewrite Hzero; [lia|]. rewrite <- list_elem_of_In. exact Hnotin.
  - destruct Hin as [->|Hin]; [congruence|]. rewrite (IH Hin). lia.
Qed.

(** Over labels that are distinct and cover the keys of the rows, the
    group totals add up to the sum of the whole column. *)
Lemma group_totals_sum {R : Type} (key : R -> string) (val : R -> Z)
    (keys : list string) (rows : list R) :
  NoDup keys -> (forall r, In r rows -> In (key r) keys) ->
  Series_sum (map (fun k => group_total key val k rows) keys)
  = Series_sum (map val rows).
Proof.
  intros Hnd. induction rows as [|r rows IH]; intros Hcover.
  - clear. induction keys as [|k keys IHk]; [reflexivity|].
    cbn [map]. change (0 + Series_sum (map (fun k => group_total key val k []) keys)
                       = Series_sum (map val [])).
    rewrite IHk. reflexivity.
  - rewrite (List.map_ext
               (fun k => group_total key val k (r :: rows))
               (fun k => (if String.eqb (key r) k then val r else 0)
                         + group_total key val k rows)).
    + rewrite <- Series_sum_map_add, Series_sum_indicator, IH.
      * reflexivity.
      * intros r' Hr'. apply Hcover. right. exact Hr'.
      * exact Hnd.
      * apply Hcover. left. reflexivity.
    + intros k. unfold group_total. cbn [List.filter]. cbn beta.
      destruct (String.eqb (key r) k); unfold Series_sum; cbn [map fold_right]; lia.
Qed.

Lemma groupby_sum_total {R : Type} (key : R -> string) (val : R -> Z)
    (rows : list R) :
  Series_sum (map snd (groupby_sum key val rows)) = Series_sum (map val rows).
Proof.
  rewrite groupby_sum_unfold, List.map_map. cbn [snd].
  apply group_totals_sum; [apply group_keys_NoDup|].
  intros r Hr. apply In_group_keys, List.in_map, Hr.
Qed.

(** X19: grouping loses no goal: the totals of the combined table add up
    to all home goals plus all away goals of the window. *)
Theorem total_goals_by_team_conserves_goals (fl : DataFrame) :
  Series_sum (map snd (total_goals_by_team fl))
  = col_sum HomeGoals fl + col_sum AwayGoals fl.
Proof.
  unfold total_goals_by_team.
  rewrite groupby_sum_total, map_app, Series_sum_app, !groupby_sum_total.
  reflexivity.
Qed.

(** X20: the total listed for a team is the total goals the aggregator
    reports for that team on the rows of the window. *)
Theorem top_scorers_agree_with_insights
    (df : DataFrame) (league : string) (dr : Z * Z) :
  Forall (fun e => exists i,
            calculate_insights (filtered_league_data df league dr) (fst e) = Ok i
            /\ TotalGoalsScored i = snd e)
         (top_scorers df league dr).
Proof.
  apply List.Forall_forall. intros e He. apply top_scorers_In in He.
  pose proof (total_goals_by_team_rows (filtered_league_data df league dr)) as Hrows.
  rewrite List.Forall_forall in Hrows. specialize (Hrows e He).
  destruct (calculate_insights_returns (filtered_league_data df league dr) (fst e))
    as (avg & Heq & _).
  eexists. split; [exact Heq|]. cbn [summary TotalGoalsScored]. lia.
Qed.

(** ** Signs *)



